(** * slog-traceparent: the traceparent middleware and its log extractor

    A shallow embedding of [traceparent.go] (package [traceparent]) together
    with the fragments of the Go standard library it calls
    ([strings.Split], [strconv.ParseInt], [context.WithValue],
    [net/http]'s request and header, [log/slog]'s attributes), followed by
    the properties of the middleware [New], of [Trace.Context] and of
    [TraceParentExtractor].

    Go strings are byte sequences; they are modelled by [string], whose
    characters are the 256 values of [ascii]. *)

From Stdlib Require Import ZArith Ascii String Bool Lia.
From stdpp Require Import gmap strings list fin_maps.

Local Open Scope string_scope.
Local Open Scope Z_scope.

(** ** Package [strings] *)

Module gostrings.

(** [strings.HasPrefix s prefix]. *)
Fixpoint HasPrefix (s prefix : string) {struct prefix} : bool :=
  match prefix with
  | EmptyString => true
  | String p prefix' =>
      match s with
      | EmptyString => false
      | String c s' => Ascii.eqb c p && HasPrefix s' prefix'
      end
  end.

(** The loop of [genSplit] for a non-empty separator, read left to right:
    [cur] is the piece being collected, [skip] counts the bytes of a
    separator occurrence still to be stepped over.  A separator is cut at
    its leftmost occurrence, and occurrences never overlap, as with the
    repeated [Index] of the library. *)
Fixpoint splitFrom (sep : string) (skip : nat) (cur s : string) : list string :=
  match s with
  | EmptyString => [cur]
  | String c s' =>
      match skip with
      | S k => splitFrom sep k cur s'
      | O =>
          if HasPrefix s sep
          then cur :: splitFrom sep (Nat.pred (String.length sep)) EmptyString s'
          else splitFrom sep O (cur +:+ String c EmptyString) s'
      end
  end.

(** The empty-separator case of [genSplit] ([explode]) on single bytes;
    it coincides with the library on ASCII input.  An empty input gives
    the empty slice there. *)
Fixpoint explode (s : string) : list string :=
  match s with
  | EmptyString => []
  | String c s' => String c EmptyString :: explode s'
  end.

(** [strings.Split s sep]: all pieces, none dropped; a string without
    the separator (the empty one included) yields the one-element slice
    holding it. *)
Definition Split (s sep : string) : list string :=
  match sep with
  | EmptyString => explode s
  | String _ _ => splitFrom sep O EmptyString s
  end.

End gostrings.

(** ** Package [strconv] *)

Module strconv.

Inductive NumError := ErrSyntax | ErrRange | ErrBase | ErrBitSize.

(** A Go [error] value: [None] is [nil]. *)
Definition error := option NumError.

Definition byte (c : ascii) : Z := Z.of_N (N_of_ascii c).

(** Wrap-around of the machine types of the library. *)
Definition uint64 (z : Z) : Z := z mod 2 ^ 64.
Definition int64 (z : Z) : Z := (z + 2 ^ 63) mod 2 ^ 64 - 2 ^ 63.

Definition maxUint64 : Z := 2 ^ 64 - 1.

(** [lower(c)]: [c | ('x' - 'X')]. *)
Definition lower (c : Z) : Z := Z.lor c 32.

(** The digit switch of [ParseUint]'s loop for a non-zero base, where an
    underscore is not accepted. *)
Definition digit (c : Z) : option Z :=
  if (48 <=? c) && (c <=? 57) then Some (c - 48)
  else if (97 <=? lower c) && (lower c <=? 122) then Some (lower c - 97 + 10)
  else None.

(** The body of the [for _, c := range []byte(s)] loop; [n] is the
    accumulator.  Every [return] of the loop ends the recursion. *)
Fixpoint parseDigits (base cutoff maxVal : Z) (n : Z) (s : string) : Z * error :=
  match s with
  | EmptyString => (n, None)
  | String c s' =>
      match digit (byte c) with
      | None => (0, Some ErrSyntax)
      | Some d =>
          if d >=? base then (0, Some ErrSyntax)
          else if n >=? cutoff then (maxVal, Some ErrRange)
          else
            let n' := uint64 (n * base) in
            let n1 := uint64 (n' + d) in
            if (n1 <? n') || (n1 >? maxVal) then (maxVal, Some ErrRange)
            else parseDigits base cutoff maxVal n1 s'
      end
  end.

(** [strconv.ParseUint s base bitSize] for an explicit base. Base 0, where
    the library reads a prefix and allows underscores, is not part of
    this model: the middleware always passes base 16. *)
Definition ParseUint (s : string) (base bitSize : Z) : Z * error :=
  match s with
  | EmptyString => (0, Some ErrSyntax)
  | String _ _ =>
      if negb ((2 <=? base) && (base <=? 36)) then (0, Some ErrBase)
      else
        let bitSize' := if bitSize =? 0 then 64 else bitSize in
        if (bitSize' <? 0) || (bitSize' >? 64) then (0, Some ErrBitSize)
        else
          let cutoff := maxUint64 / base + 1 in
          let maxVal := uint64 (Z.shiftl 1 bitSize' - 1) in
          parseDigits base cutoff maxVal 0 s
  end.

(** [strconv.ParseInt s base bitSize]. *)
Definition ParseInt (s : string) (base bitSize : Z) : Z * error :=
  match s with
  | EmptyString => (0, Some ErrSyntax)
  | String c0 rest =>
      let '(neg, s1) :=
        if Ascii.eqb c0 "+" then (false, rest)
        else if Ascii.eqb c0 "-" then (true, rest)
        else (false, s) in
      match ParseUint s1 base bitSize with
      | (_, Some ErrSyntax) => (0, Some ErrSyntax)
      | (_, Some ErrBase) => (0, Some ErrBase)
      | (_, Some ErrBitSize) => (0, Some ErrBitSize)
      | (un, _) =>
          let bitSize' := if bitSize =? 0 then 64 else bitSize in
          let cutoff := uint64 (Z.shiftl 1 (bitSize' - 1)) in
          if negb neg && (un >=? cutoff) then (int64 (cutoff - 1), Some ErrRange)
          else if neg && (un >? cutoff) then (int64 (- int64 cutoff), Some ErrRange)
          else
            let n := int64 un in
            (if neg then int64 (- n) else n, None)
      end
  end.

End strconv.

(** ** Package [traceparent]: the data *)

(** [type Trace struct { ID string; SpanID string; Sampled bool }] *)
Record Trace := mkTrace { ID : string; SpanID : string; Sampled : bool }.

(** The zero value [Trace{}], which a failed type assertion yields. *)
Definition zeroTrace : Trace := mkTrace "" "" false.

(** ** Package [context] *)

Module context.

(** Context keys.  [traceContextKeyT] is the value [traceContextKeyT{}] of
    the unexported struct type of package [traceparent]; every other
    package can only build keys of its own types, which are never equal
    to it. *)
Inductive key :=
| traceContextKeyT
| stringKey (s : string)
| foreignKey (type : string) (id : Z).

#[global] Instance key_eq_dec : EqDecision key.
Proof. solve_decision. Defined.

(** Values of the interface type [any], by dynamic type. *)
Inductive any :=
| anyNil
| anyTrace (t : Trace)
| anyString (s : string)
| anyBool (b : bool)
| anyInt (z : Z).

(** A non-nil [context.Context]: the empty contexts, a [valueCtx] built by
    [WithValue], and the derivations that carry no value of their own
    ([WithCancel], [WithDeadline], [WithTimeout], [WithoutCancel]). *)
Inductive Context :=
| backgroundCtx
| todoCtx
| valueCtx (parent : Context) (k : key) (val : any)
| cancelCtx (parent : Context).

Definition Background : Context := backgroundCtx.

(** [context.WithValue parent key val]. *)
Definition WithValue (parent : Context) (k : key) (val : any) : Context :=
  valueCtx parent k val.

(** [ctx.Value(key)]: the nearest value stored under [key], [nil] when
    there is none. *)
Fixpoint Value (ctx : Context) (k : key) : any :=
  match ctx with
  | backgroundCtx => anyNil
  | todoCtx => anyNil
  | valueCtx parent k' val => if decide (k' = k) then val else Value parent k
  | cancelCtx parent => Value parent k
  end.

End context.

(** ** Package [log/slog]: attributes *)

Module slog.

Inductive Value :=
| StringValue (s : string)
| BoolValue (b : bool).

Record Attr := mkAttr { Key : string; Val : Value }.

(** [slog.String key value] and [slog.Bool key value]. *)
Definition String (k v : string) : Attr := mkAttr k (StringValue v).
Definition Bool (k : string) (v : bool) : Attr := mkAttr k (BoolValue v).

(** [slog.Level] is an [int]. *)
Definition Level := Z.

End slog.

(** [time.Time], opaque to this package: wall and monotonic readings. *)
Record Time := mkTime { wall : Z; ext : Z }.

(** ** Package [net/http] *)

Module http.

(** Request headers, [map[string][]string] under canonical keys. *)
Abbreviation Header := (gmap string (list string)).

Definition isUpper (c : ascii) : bool :=
  (65 <=? strconv.byte c) && (strconv.byte c <=? 90).
Definition isLower (c : ascii) : bool :=
  (97 <=? strconv.byte c) && (strconv.byte c <=? 122).
Definition toUpper (c : ascii) : ascii :=
  if isLower c then ascii_of_N (N_of_ascii c - 32) else c.
Definition toLower (c : ascii) : ascii :=
  if isUpper c then ascii_of_N (N_of_ascii c + 32) else c.

(** The bytes of an HTTP token ([validHeaderFieldByte]). *)
Definition validHeaderFieldByte (c : ascii) : bool :=
  let b := strconv.byte c in
  (48 <=? b) && (b <=? 57) || isUpper c || isLower c
  || existsb (Ascii.eqb c)
       ["!"; "#"; "$"; "%"; "&"; "'"; "*"; "+"; "-"; "."; "^"; "_"; "`"; "|"; "~"]%char.

Fixpoint canonical (upper : bool) (s : string) : string :=
  match s with
  | EmptyString => EmptyString
  | String c s' =>
      String (if upper then toUpper c else toLower c)
             (canonical (Ascii.eqb c "-") s')
  end.

Fixpoint allValid (s : string) : bool :=
  match s with
  | EmptyString => true
  | String c s' => validHeaderFieldByte c && allValid s'
  end.

(** [textproto.CanonicalMIMEHeaderKey]: a key with a byte outside the
    token alphabet is returned as it is; otherwise the first letter and
    every letter after a hyphen are upper case, the others lower case. *)
Definition CanonicalMIMEHeaderKey (s : string) : string :=
  if allValid s then canonical true s else s.

(** [h.Get(key)]: the first value under the canonical key, [""] when the
    key is absent or has no value. *)
Definition Get (h : Header) (k : string) : string :=
  match h !! CanonicalMIMEHeaderKey k with
  | Some (v :: _) => v
  | _ => EmptyString
  end.

(** [http.Request], with the fields a handler may look at; [ctx] is the
    unexported context field, which may be nil. *)
Record Request := mkRequest {
  Method : string;
  RequestURI : string;
  Hdr : Header;
  Body : string;
  ctx : option context.Context
}.

(** [r.Context()]. *)
Definition Context (r : Request) : context.Context :=
  match ctx r with
  | Some c => c
  | None => context.Background
  end.

(** The value [*r2] that [r.WithContext(ctx)] builds: a shallow copy of
    [*r] with the context replaced. *)
Definition withCtx (r : Request) (c : context.Context) : Request :=
  mkRequest (Method r) (RequestURI r) (Hdr r) (Body r) (Some c).

(** Requests live in a store and are passed by pointer. *)
Abbreviation ptr := positive.
Abbreviation Store := (gmap positive Request).

(** [r.WithContext(ctx)]: [r2 := new(Request); *r2 = *r; r2.ctx = ctx].
    The new cell is at an address not in use; [None] stands for the
    run-time panic of dereferencing a pointer that holds no request. *)
Definition WithContext (r : ptr) (c : context.Context) (st : Store)
  : option (ptr * Store) :=
  match st !! r with
  | Some req =>
      let r2 := fresh (dom st) in
      Some (r2, <[r2 := withCtx req c]> st)
  | None => None
  end.

End http.

(** ** Package [traceparent]: the operations *)

(** [func (trace Trace) Context(ctx context.Context) context.Context] *)
Definition Trace_Context (trace : Trace) (ctx : context.Context) : context.Context :=
  context.WithValue ctx context.traceContextKeyT (context.anyTrace trace).

(** The comma-ok type assertion [v.(Trace)]. *)
Definition assertTrace (v : context.any) : Trace * bool :=
  match v with
  | context.anyTrace t => (t, true)
  | _ => (zeroTrace, false)
  end.

(** The look-up that opens [TraceParentExtractor]:
    [ctx.Value(traceContextKeyT{}).(Trace)]. *)
Definition lookupTrace (ctx : context.Context) : Trace * bool :=
  assertTrace (context.Value ctx context.traceContextKeyT).

(** [TraceParentExtractor ctx recordT recordLvl recordMsg]; a nil slice is
    the empty list. *)
Definition TraceParentExtractor (ctx : context.Context) (recordT : Time)
    (recordLvl : slog.Level) (recordMsg : string) : list slog.Attr :=
  let '(trace, ok) := assertTrace (context.Value ctx context.traceContextKeyT) in
  if negb ok || String.eqb (ID trace) "" then []
  else
    let attrs := [slog.String "traceID" (ID trace);
                  slog.Bool "traceSampled" (Sampled trace)] in
    if negb (String.eqb (SpanID trace) "")
    then attrs ++ [slog.String "spanID" (ID trace)]
    else attrs.

Section Middleware.

(** The response writer and what a handler run amounts to are left
    open.  A handler reads the request through its pointer in the store;
    [None] is a run-time panic. *)
Context {ResponseWriter Outcome : Type}.

Definition Handler := ResponseWriter -> http.ptr -> http.Store -> option Outcome.

(** [func New(next http.Handler) http.Handler] *)
Definition New (next : Handler) : Handler :=
  fun w r st =>
    match st !! r with
    | None => None
    | Some req =>
        let traceparent := gostrings.Split (http.Get (http.Hdr req) "traceparent") "-" in
        if (Nat.eqb (List.length traceparent) 4)
           && String.eqb (nth 0 traceparent "") "00"
        then
          match strconv.ParseInt (nth 3 traceparent "") 16 8 with
          | (flags, None) =>
              let trace := mkTrace (nth 1 traceparent "") (nth 2 traceparent "")
                                   (negb (Z.land flags 1 =? 0)) in
              let ctx := Trace_Context trace (http.Context req) in
              match http.WithContext r ctx st with
              | Some (r2, st2) => next w r2 st2
              | None => None
              end
          | (_, Some _) => next w r st
          end
        else next w r st
    end.

End Middleware.

(** ** Vocabulary of the properties *)

(** *** The wire format of the header

    [traceparent: <version>-<trace-id>-<parent-id>-<trace-flags>], with
    hexadecimal fields.  These definitions describe the format and the
    number a hexadecimal numeral denotes; they are independent of the
    parser above. *)

Definition lowerHexDigits : list ascii := list_ascii_of_string "0123456789abcdef".
Definition upperHexDigits : list ascii := list_ascii_of_string "0123456789ABCDEF".

Fixpoint indexOf (c : ascii) (l : list ascii) : option Z :=
  match l with
  | [] => None
  | x :: l' => if Ascii.eqb c x then Some 0 else option_map Z.succ (indexOf c l')
  end.

Definition isLowerHexDigit (c : ascii) : bool :=
  match indexOf c lowerHexDigits with Some _ => true | None => false end.

Definition isHexDigit (c : ascii) : bool :=
  isLowerHexDigit c
  || match indexOf c upperHexDigits with Some _ => true | None => false end.

(** The value of a hexadecimal digit (0 for any other byte). *)
Definition hexValue (c : ascii) : Z :=
  match indexOf c lowerHexDigits, indexOf c upperHexDigits with
  | Some v, _ => v
  | None, Some v => v
  | None, None => 0
  end.

Fixpoint allChars (p : ascii -> bool) (s : string) : bool :=
  match s with
  | EmptyString => true
  | String c s' => p c && allChars p s'
  end.

Definition notHyphen (c : ascii) : bool := negb (Ascii.eqb c "-").

(** The number of hyphens of a string. *)
Fixpoint countHyphens (s : string) : nat :=
  match s with
  | EmptyString => O
  | String c s' => if Ascii.eqb c "-" then S (countHyphens s') else countHyphens s'
  end.

(** A string of exactly [n] hexadecimal digits. *)
Definition hexString (n : nat) (s : string) : Prop :=
  String.length s = n /\ allChars isHexDigit s = true.

Definition lowerHexString (n : nat) (s : string) : Prop :=
  String.length s = n /\ allChars isLowerHexDigit s = true.

(** The number denoted by a run of hexadecimal digits read after [acc];
    [None] when a byte is not a hexadecimal digit.  No bound on the size. *)
Fixpoint hexNumeral (acc : Z) (s : string) : option Z :=
  match s with
  | EmptyString => Some acc
  | String c s' =>
      if isHexDigit c then hexNumeral (16 * acc + hexValue c) s' else None
  end.

Definition hexDigits (s : string) : option Z :=
  match s with
  | EmptyString => None
  | String _ _ => hexNumeral 0 s
  end.

(** The integer a string denotes in base 16: an optional sign, then at
    least one hexadecimal digit. *)
Definition base16Integer (s : string) : option Z :=
  match s with
  | EmptyString => None
  | String c rest =>
      if Ascii.eqb c "+" then hexDigits rest
      else if Ascii.eqb c "-" then option_map Z.opp (hexDigits rest)
      else hexDigits s
  end.

(** [s] reads as a base-16 integer within the signed 8-bit range. *)
Definition fitsInt8Base16 (s : string) : Prop :=
  exists v, base16Integer s = Some v /\ -128 <= v <= 127.

(** The header value of version 00 with the given fields. *)
Definition header00 (id span flags : string) : string :=
  "00-" +:+ id +:+ "-" +:+ span +:+ "-" +:+ flags.

(** The byte that two hexadecimal digits denote. *)
Definition flagsByte (c1 c2 : ascii) : Z := 16 * hexValue c1 + hexValue c2.

(** *** Contexts *)

(** [c'] is obtained from [base] by derivations that store nothing under
    the private key: [WithValue] under another key, or a derivation that
    carries no value. *)
Inductive unrelatedDerivation (base : context.Context) : context.Context -> Prop :=
| ud_base : unrelatedDerivation base base
| ud_value c k v :
    k <> context.traceContextKeyT ->
    unrelatedDerivation base c ->
    unrelatedDerivation base (context.WithValue c k v)
| ud_cancel c :
    unrelatedDerivation base c ->
    unrelatedDerivation base (context.cancelCtx c).

(** A call of [Trace.Context] occurs somewhere in the ancestry of the
    context. *)
Inductive derivedThroughTraceContext : context.Context -> Prop :=
| dt_here T c : derivedThroughTraceContext (Trace_Context T c)
| dt_value c k v :
    derivedThroughTraceContext c ->
    derivedThroughTraceContext (context.valueCtx c k v)
| dt_cancel c :
    derivedThroughTraceContext c ->
    derivedThroughTraceContext (context.cancelCtx c).

(** *** Sample data *)

(** An inner handler that reports the pointer it was called with and the
    request found there. *)
Definition observe : @Handler unit (http.ptr * http.Request) :=
  fun _ r st =>
    match st !! r with
    | Some req => Some (r, req)
    | None => None
    end.

Definition requestWith (hdr : list string) : http.Request :=
  http.mkRequest "GET" "/" {[ "Traceparent" := hdr ]} "" None.

(** The request with its [traceparent] header removed. *)
Definition withoutTraceparent (req : http.Request) : http.Request :=
  http.mkRequest (http.Method req) (http.RequestURI req)
    (delete "Traceparent" (http.Hdr req)) (http.Body req) (http.ctx req).

Definition w3cID : string := "4bf92f3577b34da6a3ce929d0e0e4736".
Definition w3cSpan : string := "00f067aa0ba902b7".

(** A request whose flags field sets every bit, alone in its store. *)
Definition requestFF : http.Request := requestWith [header00 w3cID w3cSpan "ff"].
Definition storeFF : http.Store := {[ 1%positive := requestFF ]}.

(** The example request of the W3C recommendation, sampled. *)
Definition request01 : http.Request := requestWith [header00 w3cID w3cSpan "01"].
Definition store01 : http.Store := {[ 1%positive := request01 ]}.


(** A header whose flags field is not a number, and one with three fields. *)
Definition requestBadFlags : http.Request := requestWith ["00-abc-def-zz"].
Definition storeBadFlags : http.Store := {[ 1%positive := requestBadFlags ]}.
Definition requestThree : http.Request := requestWith ["00-abc-def"].
Definition storeThree : http.Store := {[ 1%positive := requestThree ]}.

Definition w3cTrace : Trace :=
  mkTrace "4bf92f3577b34da6a3ce929d0e0e4736" "00f067aa0ba902b7" true.

(** *** Vocabulary of the further properties *)

(** [strings.Join elems sep], the inverse of [Split]. *)
Fixpoint Join (elems : list string) (sep : string) : string :=
  match elems with
  | [] => EmptyString
  | a :: rest =>
      match rest with
      | [] => a
      | _ :: _ => a +:+ sep +:+ Join rest sep
      end
  end.

Definition hyphenFree (s : string) : Prop := allChars notHyphen s = true.

(** The header value is [00-id-span-flags] with hyphen-free fields, and
    [flags] reads as the base-16 integer [v] of the signed 8-bit range. *)
Definition acceptedHeader (hdr id span flags : string) (v : Z) : Prop :=
  hdr = header00 id span flags
  /\ hyphenFree id /\ hyphenFree span /\ hyphenFree flags
  /\ base16Integer flags = Some v /\ -128 <= v <= 127.

(** No reading of the header value as [00-id-span-flags] has flags in
    range. *)
Definition rejectedHeader (hdr : string) : Prop :=
  forall id span flags,
    hdr = header00 id span flags ->
    hyphenFree id -> hyphenFree span -> hyphenFree flags ->
    ~ fitsInt8Base16 flags.

(** An inner handler that logs through a context-aware call: its outcome
    is the list of fields [TraceParentExtractor] contributes for the
    context of the request it is run on. *)
Definition logFields {ResponseWriter : Type}
    (recordT : Time) (recordLvl : slog.Level) (recordMsg : string)
  : @Handler ResponseWriter (list slog.Attr) :=
  fun _ r st =>
    match st !! r with
    | Some req =>
        Some (TraceParentExtractor (http.Context req) recordT recordLvl recordMsg)
    | None => None
    end.

(** Sample data: a flags field with a sign, longer than two digits and in
    upper case, after identifiers that are not hexadecimal. *)
Definition requestPlus : http.Request := requestWith ["00-Trace!-Span?-+07B"].
Definition storePlus : http.Store := {[ 1%positive := requestPlus ]}.

(** A request that arrives with a trace already in its context. *)
Definition requestTraced : http.Request :=
  http.mkRequest "GET" "/" {[ "Traceparent" := ["00-abc-def-zz"] ]} ""
    (Some (context.WithValue (Trace_Context w3cTrace context.Background)
             (context.stringKey "user") (context.anyString "alice"))).
Definition storeTraced : http.Store := {[ 1%positive := requestTraced ]}.

(** * Properties *)

(** ** The library models on sample inputs *)

Example Split_empty : gostrings.Split "" "-" = [""].
Proof. reflexivity. Qed.

Example Split_w3c :
  gostrings.Split "00-4bf92f3577b34da6a3ce929d0e0e4736-00f067aa0ba902b7-01" "-"
  = ["00"; "4bf92f3577b34da6a3ce929d0e0e4736"; "00f067aa0ba902b7"; "01"].
Proof. reflexivity. Qed.

Example Split_trailing : gostrings.Split "a--b-" "-" = ["a"; ""; "b"; ""].
Proof. reflexivity. Qed.

Example ParseInt_01 : strconv.ParseInt "01" 16 8 = (1, None).
Proof. reflexivity. Qed.

Example ParseInt_7f : strconv.ParseInt "7F" 16 8 = (127, None).
Proof. reflexivity. Qed.

Example ParseInt_80 : strconv.ParseInt "80" 16 8 = (127, Some strconv.ErrRange).
Proof. reflexivity. Qed.

Example ParseInt_plus : strconv.ParseInt "+1" 16 8 = (1, None).
Proof. reflexivity. Qed.

Example ParseInt_zz : strconv.ParseInt "zz" 16 8 = (0, Some strconv.ErrSyntax).
Proof. reflexivity. Qed.

Example ParseInt_minus_80 : strconv.ParseInt "-80" 16 8 = (-128, None).
Proof. reflexivity. Qed.

Example ParseInt_minus_81 : strconv.ParseInt "-81" 16 8 = (-128, Some strconv.ErrRange).
Proof. reflexivity. Qed.

Example ParseInt_prefix : strconv.ParseInt "0x1" 16 8 = (0, Some strconv.ErrSyntax).
Proof. reflexivity. Qed.

Example ParseInt_long : strconv.ParseInt "0000001" 16 8 = (1, None).
Proof. reflexivity. Qed.

(** ** Hexadecimal digits *)

Lemma digit_hex (c : ascii) :
  match strconv.digit (strconv.byte c) with
  | Some d =>
      0 <= d /\
      if d <? 16 then isHexDigit c = true /\ hexValue c = d
      else isHexDigit c = false
  | None => isHexDigit c = false
  end.
Proof.
  destruct c as [[] [] [] [] [] [] [] []]; vm_compute; intuition congruence.
Qed.

Lemma hexValue_range (c : ascii) :
  isHexDigit c = true -> 0 <= hexValue c < 16.
Proof.
  intros Hc. pose proof (digit_hex c) as H.
  destruct (strconv.digit (strconv.byte c)) as [d|]; [|congruence].
  destruct H as [H0 H]. destruct (Z.ltb_spec d 16); [|congruence].
  destruct H as [_ ->]. lia.
Qed.

Lemma hexNumeral_ge (s : string) :
  forall acc v, 0 <= acc -> hexNumeral acc s = Some v -> acc <= v.
Proof.
  induction s as [|c s IH]; intros acc v Hacc; cbn [hexNumeral].
  - intros [= <-]. lia.
  - destruct (isHexDigit c) eqn:Hc; [|discriminate].
    intros Hv. pose proof (hexValue_range c Hc).
    apply IH in Hv; lia.
Qed.

(** ** [strconv.ParseInt] in base 16 on 8 bits *)

Lemma cutoff16_large : 255 < strconv.maxUint64 / 16 + 1.
Proof. vm_compute. reflexivity. Qed.

Lemma uint64_small (z : Z) : 0 <= z < 2 ^ 64 -> strconv.uint64 z = z.
Proof. intros H. unfold strconv.uint64. apply Z.mod_small. exact H. Qed.

Lemma int64_small (z : Z) : - 2 ^ 63 <= z < 2 ^ 63 -> strconv.int64 z = z.
Proof.
  intros H. unfold strconv.int64. rewrite Z.mod_small; lia.
Qed.

(** The digit loop against the numeral it reads, from an accumulator that
    fits one byte. *)
Lemma parseDigits_16_8 (s : string) :
  forall n, 0 <= n <= 255 ->
  match strconv.parseDigits 16 (strconv.maxUint64 / 16 + 1) 255 n s with
  | (v, None) => hexNumeral n s = Some v /\ 0 <= v <= 255
  | (v, Some strconv.ErrRange) =>
      v = 255 /\ forall u, hexNumeral n s = Some u -> 255 < u
  | (_, Some strconv.ErrSyntax) => hexNumeral n s = None
  | (_, Some _) => False
  end.
Proof.
  pose proof cutoff16_large as Hcut.
  set (cutoff := strconv.maxUint64 / 16 + 1) in *.
  induction s as [|c s IH]; intros n Hn; cbn [strconv.parseDigits hexNumeral].
  - split; [reflexivity | lia].
  - pose proof (digit_hex c) as Hd.
    destruct (strconv.digit (strconv.byte c)) as [d|]; [|rewrite Hd; reflexivity].
    destruct Hd as [Hd0 Hd].
    destruct (Z.geb_spec d 16) as [Hge|Hlt].
    { destruct (Z.ltb_spec d 16); [lia|]. rewrite Hd. reflexivity. }
    destruct (Z.ltb_spec d 16); [|lia]. destruct Hd as [-> Hv].
    destruct (Z.geb_spec n cutoff); [lia|].
    rewrite (uint64_small (n * 16)) by lia.
    rewrite (uint64_small (n * 16 + d)) by lia.
    destruct (Z.ltb_spec (n * 16 + d) (n * 16)); [lia|].
    replace (16 * n + hexValue c) with (n * 16 + d) by lia.
    destruct (Z.gtb_spec (n * 16 + d) 255) as [Hbig|Hsmall]; cbn [orb].
    + split; [reflexivity|]. intros u Hu.
      apply hexNumeral_ge in Hu; lia.
    + apply IH. lia.
Qed.

Lemma ParseUint_16_8 (s : string) :
  match strconv.ParseUint s 16 8 with
  | (v, None) => hexDigits s = Some v /\ 0 <= v <= 255
  | (v, Some strconv.ErrRange) =>
      v = 255 /\ forall u, hexDigits s = Some u -> 255 < u
  | (_, Some strconv.ErrSyntax) => hexDigits s = None
  | (_, Some _) => False
  end.
Proof.
  destruct s as [|c s]; [reflexivity|].
  unfold strconv.ParseUint, hexDigits.
  change (strconv.uint64 (Z.shiftl 1 (if 8 =? 0 then 64 else 8) - 1)) with 255.
  cbn [Z.leb Z.eqb Z.ltb Z.gtb Z.compare Pos.compare Pos.compare_cont andb orb negb].
  apply (parseDigits_16_8 (String c s) 0). lia.
Qed.

(** [ParseInt s 16 8] succeeds exactly on the strings that denote a base-16
    integer of the signed 8-bit range, and then returns that integer. *)
Lemma ParseInt_16_8 (s : string) :
  match strconv.ParseInt s 16 8 with
  | (v, None) => base16Integer s = Some v /\ -128 <= v <= 127
  | (_, Some _) => ~ fitsInt8Base16 s
  end.
Proof.
  unfold fitsInt8Base16.
  destruct s as [|c s]; [intros (v & [=] & _)|].
  unfold strconv.ParseInt, base16Integer.
  change (strconv.uint64 (Z.shiftl 1 ((if 8 =? 0 then 64 else 8) - 1))) with 128.
  destruct (Ascii.eqb c "+") eqn:Hplus;
    [|destruct (Ascii.eqb c "-") eqn:Hminus].
  - pose proof (ParseUint_16_8 s) as H.
    destruct (strconv.ParseUint s 16 8) as [un [[]|]]; cbn [negb andb];
      try (intros (v & Hv & Hr); rewrite H in Hv; discriminate);
      try contradiction.
    + destruct H as [-> H]. cbn.
      intros (v & Hv & Hr). apply H in Hv. lia.
    + destruct H as [H Hr]. destruct (Z.geb_spec un 128).
      * intros (v & Hv & Hv'). rewrite H in Hv. injection Hv as <-. lia.
      * rewrite int64_small by lia. split; [exact H | lia].
  - pose proof (ParseUint_16_8 s) as H.
    destruct (strconv.ParseUint s 16 8) as [un [[]|]]; cbn [negb andb];
      try (intros (v & Hv & Hr); rewrite H in Hv; discriminate);
      try contradiction.
    + destruct H as [-> H]. cbn.
      intros (v & Hv & Hr).
      destruct (hexDigits s) as [u|]; [|discriminate].
      injection Hv as <-. specialize (H u eq_refl). lia.
    + destruct H as [H Hr]. rewrite H. cbn [option_map].
      destruct (Z.gtb_spec un 128).
      * intros (v & Hv & Hv'). injection Hv as <-. lia.
      * rewrite (int64_small un) by lia. rewrite int64_small by lia.
        split; [reflexivity | lia].
  - pose proof (ParseUint_16_8 (String c s)) as H.
    destruct (strconv.ParseUint (String c s) 16 8) as [un [[]|]]; cbn [negb andb];
      try (intros (v & Hv & Hr); rewrite H in Hv; discriminate);
      try contradiction.
    + destruct H as [-> H]. cbn.
      intros (v & Hv & Hr). apply H in Hv. lia.
    + destruct H as [H Hr]. destruct (Z.geb_spec un 128).
      * intros (v & Hv & Hv'). rewrite H in Hv. injection Hv as <-. lia.
      * rewrite int64_small by lia. split; [exact H | lia].
Qed.

(** ** [strings.Split] on hyphens *)

Lemma append_snoc (cur : string) (c : ascii) (a : string) :
  (cur +:+ String c EmptyString) +:+ a = cur +:+ String c a.
Proof.
  induction cur as [|x cur IH]; [reflexivity|].
  change (String x ((cur +:+ String c EmptyString) +:+ a) = String x (cur +:+ String c a)).
  now rewrite IH.
Qed.

Lemma append_empty_r (s : string) : s +:+ EmptyString = s.
Proof.
  induction s as [|x s IH]; [reflexivity|].
  change (String x (s +:+ EmptyString) = String x s). now rewrite IH.
Qed.

Lemma splitFrom_hyphen_piece (a : string) :
  forall cur rest,
  allChars notHyphen a = true ->
  gostrings.splitFrom "-" O cur (a +:+ String "-" rest)
  = (cur +:+ a) :: gostrings.splitFrom "-" O EmptyString rest.
Proof.
  induction a as [|c a IH]; intros cur rest Ha.
  - rewrite append_empty_r. reflexivity.
  - cbn in Ha. apply andb_prop in Ha as [Hc Ha].
    unfold notHyphen in Hc. apply negb_true_iff in Hc.
    change (String c a +:+ String "-" rest) with (String c (a +:+ String "-" rest)).
    cbn [gostrings.splitFrom gostrings.HasPrefix]. rewrite Hc. cbn [andb].
    rewrite IH by exact Ha. now rewrite append_snoc.
Qed.

Lemma splitFrom_hyphen_last (a : string) :
  forall cur,
  allChars notHyphen a = true ->
  gostrings.splitFrom "-" O cur a = [cur +:+ a].
Proof.
  induction a as [|c a IH]; intros cur Ha.
  - rewrite append_empty_r. reflexivity.
  - cbn in Ha. apply andb_prop in Ha as [Hc Ha].
    unfold notHyphen in Hc. apply negb_true_iff in Hc.
    cbn [gostrings.splitFrom gostrings.HasPrefix]. rewrite Hc. cbn [andb].
    rewrite IH by exact Ha. now rewrite append_snoc.
Qed.

Lemma allChars_impl (p q : ascii -> bool) (s : string) :
  (forall c, p c = true -> q c = true) ->
  allChars p s = true -> allChars q s = true.
Proof.
  intros Hpq. induction s as [|c s IH]; cbn; [reflexivity|].
  intros [Hc Hs]%andb_prop. rewrite (Hpq c Hc), (IH Hs). reflexivity.
Qed.

Lemma hex_notHyphen (c : ascii) : isHexDigit c = true -> notHyphen c = true.
Proof.
  destruct c as [[] [] [] [] [] [] [] []]; vm_compute; congruence.
Qed.

Lemma lowerHex_hex (c : ascii) : isLowerHexDigit c = true -> isHexDigit c = true.
Proof. unfold isHexDigit. now intros ->. Qed.

(** The split on hyphens has one piece more than the string has hyphens:
    the four-part check asks for exactly three hyphens. *)
Lemma splitFrom_hyphen_length (s : string) :
  forall cur,
  List.length (gostrings.splitFrom "-" O cur s) = S (countHyphens s).
Proof.
  induction s as [|c s IH]; intros cur; [reflexivity|].
  cbn [gostrings.splitFrom gostrings.HasPrefix countHyphens].
  destruct (Ascii.eqb c "-"); cbn [andb].
  - change (Nat.pred (String.length "-")) with O.
    cbn [List.length]. now rewrite IH.
  - apply IH.
Qed.

Lemma Split_hyphen_length (s : string) :
  List.length (gostrings.Split s "-") = S (countHyphens s).
Proof. apply splitFrom_hyphen_length. Qed.

(** A version-00 header whose fields hold no hyphen splits into its four
    fields. *)
Lemma Split_header00 (id span flags : string) :
  allChars notHyphen id = true ->
  allChars notHyphen span = true ->
  allChars notHyphen flags = true ->
  gostrings.Split (header00 id span flags) "-" = ["00"; id; span; flags].
Proof.
  intros Hid Hspan Hflags.
  unfold header00, gostrings.Split.
  change ("00-" +:+ id +:+ "-" +:+ span +:+ "-" +:+ flags)
    with ("00" +:+ String "-" (id +:+ String "-" (span +:+ String "-" flags))).
  rewrite splitFrom_hyphen_piece by reflexivity.
  rewrite splitFrom_hyphen_piece by exact Hid.
  rewrite splitFrom_hyphen_piece by exact Hspan.
  rewrite splitFrom_hyphen_last by exact Hflags.
  reflexivity.
Qed.

(** ** The three paths of the middleware *)

Section MiddlewarePaths.

Context {ResponseWriter Outcome : Type}.
Variable next : @Handler ResponseWriter Outcome.
Variable w : ResponseWriter.
Variable r : http.ptr.
Variable st : http.Store.
Variable req : http.Request.
Hypothesis Hreq : st !! r = Some req.

(** The enriched path: the request is copied to a new cell whose context
    carries the trace, and the inner handler runs on the copy. *)
Lemma New_enriches (p1 p2 p3 : string) (flags : Z) :
  gostrings.Split (http.Get (http.Hdr req) "traceparent") "-" = ["00"; p1; p2; p3] ->
  strconv.ParseInt p3 16 8 = (flags, None) ->
  New next w r st
  = next w (fresh (dom st))
      (<[fresh (dom st) :=
           http.withCtx req
             (Trace_Context (mkTrace p1 p2 (negb (Z.land flags 1 =? 0)))
                            (http.Context req))]> st).
Proof.
  intros Hsplit Hparse. unfold New, http.WithContext.
  rewrite Hreq, Hsplit.
  cbn [List.length nth Nat.eqb andb].
  change (String.eqb "00" "00") with true. cbn iota.
  rewrite Hparse. reflexivity.
Qed.

(** The pass-through path after a failed flags parse. *)
Lemma New_flags_error (p1 p2 p3 : string) (v : Z) (e : strconv.NumError) :
  gostrings.Split (http.Get (http.Hdr req) "traceparent") "-" = ["00"; p1; p2; p3] ->
  strconv.ParseInt p3 16 8 = (v, Some e) ->
  New next w r st = next w r st.
Proof.
  intros Hsplit Hparse. unfold New.
  rewrite Hreq, Hsplit.
  cbn [List.length nth Nat.eqb andb].
  change (String.eqb "00" "00") with true. cbn iota.
  rewrite Hparse. reflexivity.
Qed.

(** The pass-through path after a failed segment or version check. *)
Lemma New_check_fails :
  (Nat.eqb (List.length (gostrings.Split (http.Get (http.Hdr req) "traceparent") "-")) 4
   && String.eqb (nth 0 (gostrings.Split (http.Get (http.Hdr req) "traceparent") "-") "") "00")
  = false ->
  New next w r st = next w r st.
Proof.
  intros Hcheck. unfold New. rewrite Hreq. cbn zeta. rewrite Hcheck. reflexivity.
Qed.

End MiddlewarePaths.

Lemma canonical_traceparent : http.CanonicalMIMEHeaderKey "traceparent" = "Traceparent".
Proof. reflexivity. Qed.

Lemma Get_withoutTraceparent (req : http.Request) :
  http.Get (http.Hdr (withoutTraceparent req)) "traceparent" = "".
Proof.
  unfold http.Get. rewrite canonical_traceparent.
  unfold withoutTraceparent. cbn [http.Hdr].
  now rewrite lookup_delete_eq.
Qed.

(** A request without the header goes to the inner handler as it is. *)
Lemma New_absent {ResponseWriter Outcome : Type}
    (next : @Handler ResponseWriter Outcome) (w : ResponseWriter)
    (r : http.ptr) (st : http.Store) (req : http.Request) :
  st !! r = Some req ->
  http.Get (http.Hdr req) "traceparent" = "" ->
  New next w r st = next w r st.
Proof.
  intros Hreq Hget. apply (New_check_fails next w r st req Hreq).
  rewrite Hget. reflexivity.
Qed.

Lemma lookupTrace_Trace_Context (T : Trace) (c : context.Context) :
  lookupTrace (Trace_Context T c) = (T, true).
Proof.
  unfold lookupTrace, Trace_Context, context.WithValue.
  cbn [context.Value]. rewrite decide_True by reflexivity. reflexivity.
Qed.

Lemma land1_testbit (v : Z) : negb (Z.land v 1 =? 0) = Z.testbit v 0.
Proof.
  change 1 with (Z.ones 1). rewrite Z.land_ones by lia.
  rewrite Z.bit0_eqb. change (2 ^ 1) with 2.
  pose proof (Z.mod_pos_bound v 2 ltac:(lia)).
  destruct (Z.eqb_spec (v mod 2) 0), (Z.eqb_spec (v mod 2) 1); cbn; lia || reflexivity.
Qed.

(** Two hexadecimal digits denote their flags byte. *)
Lemma base16Integer_two_digits (c1 c2 : ascii) :
  isHexDigit c1 = true ->
  isHexDigit c2 = true ->
  base16Integer (String c1 (String c2 EmptyString)) = Some (flagsByte c1 c2)
  /\ 0 <= flagsByte c1 c2 <= 255.
Proof.
  intros Hc1 Hc2. split.
  - unfold base16Integer, hexDigits, flagsByte. cbn [hexNumeral].
    assert (Ascii.eqb c1 "+" = false) as ->.
    { revert Hc1. destruct c1 as [[] [] [] [] [] [] [] []]; vm_compute; congruence. }
    assert (Ascii.eqb c1 "-" = false) as ->.
    { apply hex_notHyphen in Hc1. now apply negb_true_iff in Hc1. }
    rewrite Hc1, Hc2. f_equal; lia.
  - pose proof (hexValue_range c1 Hc1). pose proof (hexValue_range c2 Hc2).
    unfold flagsByte. lia.
Qed.

Lemma Split_header00_flags (id span : string) (c1 c2 : ascii) :
  lowerHexString 32 id ->
  hexString 16 span ->
  isHexDigit c1 = true ->
  isHexDigit c2 = true ->
  gostrings.Split (header00 id span (String c1 (String c2 EmptyString))) "-"
  = ["00"; id; span; String c1 (String c2 EmptyString)].
Proof.
  intros [_ Hid] [_ Hspan] Hc1 Hc2. apply Split_header00.
  - eapply allChars_impl; [|exact Hid].
    intros c Hc. apply hex_notHyphen, lowerHex_hex, Hc.
  - eapply allChars_impl; [|exact Hspan]. exact hex_notHyphen.
  - cbn [allChars]. now rewrite !hex_notHyphen.
Qed.

(** What a handler reads through the pointer of the copy: a request with
    the fields of the original whose context is the original context
    extended by the trace under the private key, so that the look-up on
    it finds the trace. *)
Lemma copy_reads_trace (st : http.Store) (r2 : http.ptr) (req : http.Request)
    (T : Trace) :
  exists req2,
    (<[r2 := http.withCtx req (Trace_Context T (http.Context req))]> st) !! r2
      = Some req2
    /\ req2 = http.mkRequest (http.Method req) (http.RequestURI req)
                (http.Hdr req) (http.Body req)
                (Some (context.valueCtx (http.Context req)
                         context.traceContextKeyT (context.anyTrace T)))
    /\ http.Context req2
       = context.valueCtx (http.Context req) context.traceContextKeyT
           (context.anyTrace T)
    /\ lookupTrace (http.Context req2) = (T, true).
Proof.
  eexists. split; [apply lookup_insert_eq|].
  split; [reflexivity|]. split; [reflexivity|].
  apply (lookupTrace_Trace_Context T (http.Context req)).
Qed.

(** ** The middleware on well-formed headers *)

(** Counterexample to C1 as worded, for every two-digit flags field: the
    W3C header with flags [ff] has the required form, yet the inner handler
    receives the original request, whose context holds no trace, because
    [ff] exceeds the signed 8-bit range of the flags parse. *)
Lemma New_flags_ff_not_attached :
  lowerHexString 32 w3cID /\ hexString 16 w3cSpan /\ hexString 2 "ff" /\
  http.Get (http.Hdr requestFF) "traceparent" = header00 w3cID w3cSpan "ff" /\
  New observe () 1%positive storeFF = Some (1%positive, requestFF) /\
  lookupTrace (http.Context requestFF) = (zeroTrace, false).
Proof.
  repeat split; vm_compute; reflexivity.
Qed.

(** C1 (amended): for every header [00-<32 lowercase hex>-<16 hex>-<2 hex>]
    whose flags byte is at most [0x7f], the middleware copies the request,
    gives the copy a context in which the trace record made of the two
    identifiers and of bit 0 of the flags byte is stored, and runs the
    inner handler on the copy: the request the handler reads through the
    pointer it is given has the original context extended by that record
    under the private key, and the look-up on it returns the record. *)
Theorem New_attaches_trace {ResponseWriter Outcome : Type}
    (next : @Handler ResponseWriter Outcome) (w : ResponseWriter)
    (r : http.ptr) (st : http.Store) (req : http.Request)
    (id span : string) (c1 c2 : ascii) :
  st !! r = Some req ->
  lowerHexString 32 id ->
  hexString 16 span ->
  isHexDigit c1 = true ->
  isHexDigit c2 = true ->
  flagsByte c1 c2 <= 127 ->
  http.Get (http.Hdr req) "traceparent"
    = header00 id span (String c1 (String c2 EmptyString)) ->
  let trace := mkTrace id span (Z.testbit (flagsByte c1 c2) 0) in
  let ctx := Trace_Context trace (http.Context req) in
  let r2 := fresh (dom st) in
  New next w r st = next w r2 (<[r2 := http.withCtx req ctx]> st)
  /\ lookupTrace ctx = (trace, true)
  /\ st !! r2 = None
  /\ exists req2,
       (<[r2 := http.withCtx req ctx]> st) !! r2 = Some req2
       /\ req2 = http.mkRequest (http.Method req) (http.RequestURI req)
                   (http.Hdr req) (http.Body req)
                   (Some (context.valueCtx (http.Context req)
                            context.traceContextKeyT (context.anyTrace trace)))
       /\ http.Context req2
          = context.valueCtx (http.Context req) context.traceContextKeyT
              (context.anyTrace trace)
       /\ lookupTrace (http.Context req2) = (trace, true).
Proof.
  intros Hreq Hid Hspan Hc1 Hc2 Hrange Hget trace ctx r2.
  assert (Hsplit : gostrings.Split (http.Get (http.Hdr req) "traceparent") "-"
                   = ["00"; id; span; String c1 (String c2 EmptyString)]).
  { rewrite Hget. now apply Split_header00_flags. }
  destruct (base16Integer_two_digits c1 c2 Hc1 Hc2) as [Hnum Hbyte].
  assert (Hparse : strconv.ParseInt (String c1 (String c2 EmptyString)) 16 8
                   = (flagsByte c1 c2, None)).
  { pose proof (ParseInt_16_8 (String c1 (String c2 EmptyString))) as H.
    destruct (strconv.ParseInt (String c1 (String c2 EmptyString)) 16 8) as [v [e|]].
    - exfalso. apply H. exists (flagsByte c1 c2). split; [exact Hnum | lia].
    - destruct H as [H _]. rewrite Hnum in H. now injection H as <-. }
  split; [|split; [|split]].
  - rewrite (New_enriches next w r st req Hreq _ _ _ _ Hsplit Hparse).
    rewrite land1_testbit. reflexivity.
  - apply lookupTrace_Trace_Context.
  - apply not_elem_of_dom. apply is_fresh.
  - exact (copy_reads_trace st r2 req trace).
Qed.

Lemma New_attaches_trace_witness :
  store01 !! 1%positive = Some request01
  /\ lowerHexString 32 w3cID
  /\ hexString 16 w3cSpan
  /\ flagsByte "0" "1" <= 127
  /\ New observe () 1%positive store01
     = Some (2%positive,
             http.mkRequest "GET" "/"
               {[ "Traceparent" := [header00 w3cID w3cSpan "01"] ]} ""
               (Some (context.valueCtx context.backgroundCtx
                        context.traceContextKeyT
                        (context.anyTrace
                           (mkTrace "4bf92f3577b34da6a3ce929d0e0e4736"
                                    "00f067aa0ba902b7" true)))))
  /\ exists req2,
       (<[2%positive :=
            http.withCtx request01 (Trace_Context w3cTrace context.Background)]>
          store01) !! 2%positive = Some req2
       /\ lookupTrace (http.Context req2)
          = (mkTrace "4bf92f3577b34da6a3ce929d0e0e4736" "00f067aa0ba902b7" true,
             true).
Proof.
  assert (Hst : store01 !! 1%positive = Some request01) by reflexivity.
  assert (Hid : lowerHexString 32 w3cID) by (split; reflexivity).
  assert (Hspan : hexString 16 w3cSpan) by (split; reflexivity).
  assert (Hrange : flagsByte "0" "1" <= 127) by (vm_compute; discriminate).
  assert (Hget : http.Get (http.Hdr request01) "traceparent"
                 = header00 w3cID w3cSpan "01") by reflexivity.
  split; [exact Hst|]. split; [exact Hid|]. split; [exact Hspan|].
  split; [exact Hrange|].
  destruct (New_attaches_trace observe () 1%positive store01 request01
              w3cID w3cSpan "0" "1"
              Hst Hid Hspan eq_refl eq_refl Hrange Hget)
    as (H & _ & _ & req2 & Hread & _ & _ & Hlook).
  split.
  - rewrite H. vm_compute. reflexivity.
  - exists req2. split; [exact Hread | exact Hlook].
Defined.

(** The other half of the flags range: with the top bit of the flags byte
    set, the parse is out of range and the request passes through. *)
Lemma New_high_flags_pass_through {ResponseWriter Outcome : Type}
    (next : @Handler ResponseWriter Outcome) (w : ResponseWriter)
    (r : http.ptr) (st : http.Store) (req : http.Request)
    (id span : string) (c1 c2 : ascii) :
  st !! r = Some req ->
  lowerHexString 32 id ->
  hexString 16 span ->
  isHexDigit c1 = true ->
  isHexDigit c2 = true ->
  128 <= flagsByte c1 c2 ->
  http.Get (http.Hdr req) "traceparent"
    = header00 id span (String c1 (String c2 EmptyString)) ->
  New next w r st = next w r st.
Proof.
  intros Hreq Hid Hspan Hc1 Hc2 Hrange Hget.
  destruct (base16Integer_two_digits c1 c2 Hc1 Hc2) as [Hnum _].
  pose proof (ParseInt_16_8 (String c1 (String c2 EmptyString))) as H.
  destruct (strconv.ParseInt (String c1 (String c2 EmptyString)) 16 8)
    as [v [e|]] eqn:Hparse.
  - apply (New_flags_error next w r st req Hreq id span
             (String c1 (String c2 EmptyString)) v e); [|exact Hparse].
    rewrite Hget. now apply Split_header00_flags.
  - destruct H as [H Hv]. rewrite Hnum in H. injection H as <-. lia.
Qed.



(** ** The middleware on rejected headers *)

(** C2: when the header splits into four parts, the first being ["00"],
    and the fourth does not read as a base-16 integer of the signed 8-bit
    range, the inner handler is run on the original request pointer in the
    unchanged store, which is also what happens for the same request
    without the header. *)
Theorem New_bad_flags_as_absent {ResponseWriter Outcome : Type}
    (next : @Handler ResponseWriter Outcome) (w : ResponseWriter)
    (r : http.ptr) (st : http.Store) (req : http.Request)
    (p1 p2 p3 : string) :
  st !! r = Some req ->
  gostrings.Split (http.Get (http.Hdr req) "traceparent") "-" = ["00"; p1; p2; p3] ->
  ~ fitsInt8Base16 p3 ->
  New next w r st = next w r st
  /\ New next w r (<[r := withoutTraceparent req]> st)
     = next w r (<[r := withoutTraceparent req]> st).
Proof.
  intros Hreq Hsplit Hbad. split.
  - pose proof (ParseInt_16_8 p3) as H.
    destruct (strconv.ParseInt p3 16 8) as [v [e|]] eqn:Hparse.
    + exact (New_flags_error next w r st req Hreq p1 p2 p3 v e Hsplit Hparse).
    + exfalso. apply Hbad. exists v. exact H.
  - apply (New_absent next w r _ (withoutTraceparent req)).
    + apply lookup_insert_eq.
    + apply Get_withoutTraceparent.
Qed.

Lemma not_fits_zz : ~ fitsInt8Base16 "zz".
Proof. intros (v & Hv & _). vm_compute in Hv. discriminate. Qed.

Lemma New_bad_flags_as_absent_witness :
  storeBadFlags !! 1%positive = Some requestBadFlags
  /\ gostrings.Split (http.Get (http.Hdr requestBadFlags) "traceparent") "-"
     = ["00"; "abc"; "def"; "zz"]
  /\ ~ fitsInt8Base16 "zz"
  /\ New observe () 1%positive storeBadFlags = Some (1%positive, requestBadFlags).
Proof.
  assert (Hst : storeBadFlags !! 1%positive = Some requestBadFlags) by reflexivity.
  assert (Hsplit : gostrings.Split (http.Get (http.Hdr requestBadFlags) "traceparent") "-"
                   = ["00"; "abc"; "def"; "zz"]) by reflexivity.
  split; [exact Hst|]. split; [exact Hsplit|]. split; [exact not_fits_zz|].
  destruct (New_bad_flags_as_absent observe () 1%positive storeBadFlags
              requestBadFlags "abc" "def" "zz" Hst Hsplit not_fits_zz) as [H _].
  rewrite H. reflexivity.
Defined.

(** C3: when the header does not split into exactly four parts, or its
    first part is not ["00"], the inner handler is run on the original
    request pointer in the unchanged store: the request it reads, context
    included, is the very one the middleware received, and no new request
    or context is made. *)
Theorem New_failed_check_passes_request {ResponseWriter Outcome : Type}
    (next : @Handler ResponseWriter Outcome) (w : ResponseWriter)
    (r : http.ptr) (st : http.Store) (req : http.Request) :
  st !! r = Some req ->
  (List.length (gostrings.Split (http.Get (http.Hdr req) "traceparent") "-") <> 4%nat
   \/ nth 0 (gostrings.Split (http.Get (http.Hdr req) "traceparent") "-") "" <> "00") ->
  New next w r st = next w r st.
Proof.
  intros Hreq Hfail. apply (New_check_fails next w r st req Hreq).
  apply andb_false_iff. destruct Hfail as [Hlen | Hver].
  - left. now apply Nat.eqb_neq.
  - right. now apply String.eqb_neq.
Qed.

Lemma New_failed_check_passes_request_witness :
  storeThree !! 1%positive = Some requestThree
  /\ List.length (gostrings.Split (http.Get (http.Hdr requestThree) "traceparent") "-")
     <> 4%nat
  /\ New observe () 1%positive storeThree = Some (1%positive, requestThree).
Proof.
  assert (Hst : storeThree !! 1%positive = Some requestThree) by reflexivity.
  assert (Hlen : List.length
                   (gostrings.Split (http.Get (http.Hdr requestThree) "traceparent") "-")
                 <> 4%nat) by (vm_compute; discriminate).
  split; [exact Hst|]. split; [exact Hlen|].
  rewrite (New_failed_check_passes_request observe () 1%positive storeThree
             requestThree Hst (or_introl Hlen)).
  reflexivity.
Defined.

(** ** The context carrier *)

Lemma lookupTrace_unrelated (T : Trace) (c c' : context.Context) :
  unrelatedDerivation (Trace_Context T c) c' -> lookupTrace c' = (T, true).
Proof.
  induction 1 as [|c' k v Hk _ IH|c' _ IH].
  - apply lookupTrace_Trace_Context.
  - unfold lookupTrace, context.WithValue in *. cbn [context.Value].
    rewrite decide_False by exact Hk. exact IH.
  - exact IH.
Qed.

Lemma lookupTrace_never_derived (c : context.Context) :
  ~ derivedThroughTraceContext c -> lookupTrace c = (zeroTrace, false).
Proof.
  induction c as [| |c IH k v|c IH]; intros Hnot.
  - reflexivity.
  - reflexivity.
  - unfold lookupTrace in *. cbn [context.Value].
    destruct (decide (k = context.traceContextKeyT)) as [->|Hk].
    + destruct v as [|T| | |]; try reflexivity.
      exfalso. apply Hnot. apply (dt_here T c).
    + apply IH. intros Hd. apply Hnot. now apply dt_value.
  - unfold lookupTrace in *. cbn [context.Value].
    apply IH. intros Hd. apply Hnot. now apply dt_cancel.
Qed.

(** C4: the trace stored by [Trace.Context] is read back, with the found
    flag set, from the derived context and from every context derived
    further under unrelated keys; a context in whose ancestry
    [Trace.Context] was never called reports not-found. *)
Theorem carrier_round_trip (c : context.Context) (T : Trace)
    (c' c0 : context.Context) :
  unrelatedDerivation (Trace_Context T c) c' ->
  ~ derivedThroughTraceContext c0 ->
  lookupTrace (Trace_Context T c) = (T, true)
  /\ lookupTrace c' = (T, true)
  /\ lookupTrace c0 = (zeroTrace, false).
Proof.
  intros Hder Hnot. split; [|split].
  - apply lookupTrace_Trace_Context.
  - exact (lookupTrace_unrelated T c c' Hder).
  - exact (lookupTrace_never_derived c0 Hnot).
Qed.

Lemma foreign_not_derived :
  ~ derivedThroughTraceContext
      (context.cancelCtx
         (context.valueCtx context.backgroundCtx (context.stringKey "user")
                           (context.anyString "alice"))).
Proof.
  intros H. inversion H as [| |c Hc]; subst.
  inversion Hc as [|c' k v Hc'|]; subst.
  inversion Hc'.
Qed.

Lemma carrier_round_trip_witness :
  lookupTrace (Trace_Context w3cTrace context.Background) = (w3cTrace, true)
  /\ lookupTrace
       (context.WithValue
          (context.cancelCtx (Trace_Context w3cTrace context.Background))
          (context.stringKey "user") (context.anyString "alice"))
     = (w3cTrace, true)
  /\ lookupTrace
       (context.cancelCtx
          (context.valueCtx context.backgroundCtx (context.stringKey "user")
                            (context.anyString "alice")))
     = (zeroTrace, false).
Proof.
  apply (carrier_round_trip context.Background w3cTrace).
  - apply ud_value; [discriminate|]. apply ud_cancel. apply ud_base.
  - exact foreign_not_derived.
Defined.

(** C10: of two records attached in a row, the look-up returns the later
    one; the earlier one is not observable, neither by the look-up nor in
    the fields the extractor returns. *)
Theorem last_attachment_wins (c : context.Context) (T1 T2 : Trace)
    (recordT : Time) (recordLvl : slog.Level) (recordMsg : string) :
  lookupTrace (Trace_Context T2 (Trace_Context T1 c)) = (T2, true)
  /\ TraceParentExtractor (Trace_Context T2 (Trace_Context T1 c))
       recordT recordLvl recordMsg
     = TraceParentExtractor (Trace_Context T2 c) recordT recordLvl recordMsg.
Proof.
  split.
  - apply lookupTrace_Trace_Context.
  - unfold TraceParentExtractor, Trace_Context, context.WithValue.
    cbn [context.Value]. rewrite !decide_True by reflexivity. reflexivity.
Qed.

(** ** The log field extractor *)

(** The extractor as a function of what the look-up returns. *)
Lemma TraceParentExtractor_lookup (ctx : context.Context) (T : Trace) (ok : bool)
    (recordT : Time) (recordLvl : slog.Level) (recordMsg : string) :
  lookupTrace ctx = (T, ok) ->
  TraceParentExtractor ctx recordT recordLvl recordMsg
  = if negb ok || String.eqb (ID T) "" then []
    else if negb (String.eqb (SpanID T) "")
         then [slog.String "traceID" (ID T); slog.Bool "traceSampled" (Sampled T);
               slog.String "spanID" (ID T)]
         else [slog.String "traceID" (ID T); slog.Bool "traceSampled" (Sampled T)].
Proof.
  unfold lookupTrace, TraceParentExtractor. intros ->. reflexivity.
Qed.

(** C5: with no trace record in the context, or with one whose id is the
    empty string, the extractor returns the empty list, whatever the
    record's time, level and message; being a total function it has no
    failing run. *)
Theorem extractor_empty (ctx : context.Context)
    (recordT : Time) (recordLvl : slog.Level) (recordMsg : string) :
  (snd (lookupTrace ctx) = false
   \/ exists T, lookupTrace ctx = (T, true) /\ ID T = "") ->
  TraceParentExtractor ctx recordT recordLvl recordMsg = [].
Proof.
  intros [Hno | (T & Hl & Hid)].
  - destruct (lookupTrace ctx) as [T ok] eqn:Hl. cbn in Hno. subst ok.
    rewrite (TraceParentExtractor_lookup ctx T false _ _ _ Hl). reflexivity.
  - rewrite (TraceParentExtractor_lookup ctx T true _ _ _ Hl).
    rewrite Hid. reflexivity.
Qed.

Lemma extractor_empty_witness :
  TraceParentExtractor context.Background (mkTime 0 0) 0 "hello" = []
  /\ TraceParentExtractor (Trace_Context (mkTrace "" "00f067aa0ba902b7" true)
                                        context.Background)
       (mkTime 1 2) 4 "world" = [].
Proof.
  split.
  - apply extractor_empty. left. reflexivity.
  - apply extractor_empty. right.
    exists (mkTrace "" "00f067aa0ba902b7" true). split; reflexivity.
Defined.

(** C6: with a stored trace record whose id and span id are both
    non-empty, the extractor returns three fields in this order: [traceID]
    with the trace id, [traceSampled] with the sampled flag, and [spanID]
    whose value is again the trace id, not the span id; for the record of
    the W3C example the value under [spanID] is
    ["4bf92f3577b34da6a3ce929d0e0e4736"]. *)
Theorem extractor_three_fields (ctx : context.Context) (T : Trace)
    (recordT : Time) (recordLvl : slog.Level) (recordMsg : string) :
  lookupTrace ctx = (T, true) ->
  ID T <> "" ->
  SpanID T <> "" ->
  TraceParentExtractor ctx recordT recordLvl recordMsg
  = [slog.String "traceID" (ID T);
     slog.Bool "traceSampled" (Sampled T);
     slog.String "spanID" (ID T)]
  /\ TraceParentExtractor (Trace_Context w3cTrace ctx) recordT recordLvl recordMsg
     = [slog.String "traceID" "4bf92f3577b34da6a3ce929d0e0e4736";
        slog.Bool "traceSampled" true;
        slog.String "spanID" "4bf92f3577b34da6a3ce929d0e0e4736"].
Proof.
  intros Hl Hid Hspan. split.
  - rewrite (TraceParentExtractor_lookup ctx T true _ _ _ Hl).
    apply String.eqb_neq in Hid, Hspan. rewrite Hid, Hspan. reflexivity.
  - reflexivity.
Qed.

Lemma extractor_three_fields_witness :
  TraceParentExtractor (Trace_Context w3cTrace context.Background)
    (mkTime 0 0) 0 "incoming"
  = [slog.String "traceID" "4bf92f3577b34da6a3ce929d0e0e4736";
     slog.Bool "traceSampled" true;
     slog.String "spanID" "4bf92f3577b34da6a3ce929d0e0e4736"].
Proof.
  apply (extractor_three_fields (Trace_Context w3cTrace context.Background) w3cTrace).
  - reflexivity.
  - discriminate.
  - discriminate.
Defined.

(** C9: with a stored trace record whose id is non-empty and whose span id
    is empty, the extractor returns two fields in this order: the string
    field [traceID] with the trace id, then the boolean field
    [traceSampled] with the sampled flag, and no [spanID] field. *)
Theorem extractor_two_fields (ctx : context.Context) (T : Trace)
    (recordT : Time) (recordLvl : slog.Level) (recordMsg : string) :
  lookupTrace ctx = (T, true) ->
  ID T <> "" ->
  SpanID T = "" ->
  TraceParentExtractor ctx recordT recordLvl recordMsg
  = [slog.String "traceID" (ID T); slog.Bool "traceSampled" (Sampled T)].
Proof.
  intros Hl Hid Hspan.
  rewrite (TraceParentExtractor_lookup ctx T true _ _ _ Hl).
  apply String.eqb_neq in Hid. rewrite Hid, Hspan. reflexivity.
Qed.

Lemma extractor_two_fields_witness :
  TraceParentExtractor
    (Trace_Context (mkTrace "4bf92f3577b34da6a3ce929d0e0e4736" "" false)
                   context.Background)
    (mkTime 0 0) 0 "incoming"
  = [slog.String "traceID" "4bf92f3577b34da6a3ce929d0e0e4736";
     slog.Bool "traceSampled" false].
Proof.
  apply (extractor_two_fields
           (Trace_Context (mkTrace "4bf92f3577b34da6a3ce929d0e0e4736" "" false)
                          context.Background)
           (mkTrace "4bf92f3577b34da6a3ce929d0e0e4736" "" false)).
  - reflexivity.
  - discriminate.
  - reflexivity.
Defined.

(** C8: for a fixed context, two calls of the extractor that differ in the
    record's time, level and message return the same fields. *)
Theorem extractor_ignores_record (ctx : context.Context)
    (t1 t2 : Time) (lvl1 lvl2 : slog.Level) (msg1 msg2 : string) :
  TraceParentExtractor ctx t1 lvl1 msg1 = TraceParentExtractor ctx t2 lvl2 msg2.
Proof.
  unfold TraceParentExtractor.
  destruct (assertTrace (context.Value ctx context.traceContextKeyT)) as [trace ok].
  reflexivity.
Qed.

(** * Further properties *)

(** ** [Split] and [Join] *)

Lemma allChars_app (p : ascii -> bool) (a b : string) :
  allChars p (a +:+ b) = allChars p a && allChars p b.
Proof.
  induction a as [|c a IH]; [reflexivity|].
  change (String c a +:+ b) with (String c (a +:+ b)).
  cbn [allChars]. rewrite IH. now rewrite andb_assoc.
Qed.

Lemma splitFrom_hyphen_nonempty (s cur : string) :
  gostrings.splitFrom "-" O cur s <> [].
Proof.
  intros H. pose proof (splitFrom_hyphen_length s cur) as Hlen.
  rewrite H in Hlen. discriminate Hlen.
Qed.

(** Joining the pieces with hyphens gives the string back. *)
Lemma splitFrom_hyphen_Join (s : string) :
  forall cur, Join (gostrings.splitFrom "-" O cur s) "-" = cur +:+ s.
Proof.
  induction s as [|c s IH]; intros cur.
  - cbn [gostrings.splitFrom Join]. now rewrite append_empty_r.
  - cbn [gostrings.splitFrom gostrings.HasPrefix].
    destruct (Ascii.eqb_spec c "-") as [->|Hc]; cbn [andb].
    + change (Nat.pred (String.length "-")) with O.
      pose proof (splitFrom_hyphen_nonempty s EmptyString) as Hne.
      specialize (IH EmptyString).
      destruct (gostrings.splitFrom "-" O EmptyString s) as [|a rest];
        [contradiction|].
      cbn [Join] in *. rewrite IH. reflexivity.
    + rewrite IH. apply append_snoc.
Qed.

(** No piece holds a hyphen. *)
Lemma splitFrom_hyphen_pieces (s : string) :
  forall cur, hyphenFree cur ->
  Forall hyphenFree (gostrings.splitFrom "-" O cur s).
Proof.
  induction s as [|c s IH]; intros cur Hcur.
  - cbn [gostrings.splitFrom]. constructor; [exact Hcur | constructor].
  - cbn [gostrings.splitFrom gostrings.HasPrefix].
    destruct (Ascii.eqb c "-") eqn:Hc; cbn [andb].
    + constructor; [exact Hcur|]. apply IH. reflexivity.
    + apply IH. unfold hyphenFree in *. rewrite allChars_app, Hcur.
      cbn [allChars]. unfold notHyphen. rewrite Hc. reflexivity.
Qed.

(** A header that splits into four parts, the first being ["00"], is the
    version-00 header of the three others, and they hold no hyphen. *)
Lemma Split_four_inv (hdr p1 p2 p3 : string) :
  gostrings.Split hdr "-" = ["00"; p1; p2; p3] ->
  hdr = header00 p1 p2 p3 /\ hyphenFree p1 /\ hyphenFree p2 /\ hyphenFree p3.
Proof.
  intros Hsplit. unfold gostrings.Split in Hsplit.
  pose proof (splitFrom_hyphen_Join hdr EmptyString) as Hjoin.
  pose proof (splitFrom_hyphen_pieces hdr EmptyString eq_refl) as Hpieces.
  rewrite Hsplit in Hjoin, Hpieces. split.
  - change (EmptyString +:+ hdr) with hdr in Hjoin.
    rewrite <- Hjoin. reflexivity.
  - inversion Hpieces as [|? ? _ H1]; subst.
    inversion H1 as [|? ? Hp1 H2]; subst.
    inversion H2 as [|? ? Hp2 H3]; subst.
    inversion H3 as [|? ? Hp3 _]; subst.
    auto.
Qed.

Lemma rejectedHeader_bad_flags (hdr p1 p2 p3 : string) :
  gostrings.Split hdr "-" = ["00"; p1; p2; p3] ->
  ~ fitsInt8Base16 p3 ->
  rejectedHeader hdr.
Proof.
  intros Hsplit Hbad id span flags -> Hid Hspan Hflags.
  rewrite (Split_header00 id span flags Hid Hspan Hflags) in Hsplit.
  injection Hsplit as _ _ <-. exact Hbad.
Qed.

Lemma rejectedHeader_not_four (hdr : string) :
  List.length (gostrings.Split hdr "-") <> 4%nat ->
  rejectedHeader hdr.
Proof.
  intros Hlen id span flags -> Hid Hspan Hflags.
  rewrite (Split_header00 id span flags Hid Hspan Hflags) in Hlen.
  now contradiction Hlen.
Qed.

(** The flags parse on a string that denotes an integer in range. *)
Lemma ParseInt_in_range (flags : string) (v : Z) :
  base16Integer flags = Some v ->
  -128 <= v <= 127 ->
  strconv.ParseInt flags 16 8 = (v, None).
Proof.
  intros Hnum Hrange. pose proof (ParseInt_16_8 flags) as H.
  destruct (strconv.ParseInt flags 16 8) as [v' [e|]].
  - exfalso. apply H. exists v. split; assumption.
  - destruct H as [H _]. rewrite Hnum in H. now injection H as <-.
Qed.

(** What the middleware computes on a rejected header: the check fails,
    or the flags parse does. *)
Lemma rejectedHeader_paths (hdr : string) :
  rejectedHeader hdr ->
  (Nat.eqb (List.length (gostrings.Split hdr "-")) 4
   && String.eqb (nth 0 (gostrings.Split hdr "-") "") "00") = false
  \/ exists p1 p2 p3 v e,
       gostrings.Split hdr "-" = ["00"; p1; p2; p3]
       /\ strconv.ParseInt p3 16 8 = (v, Some e).
Proof.
  intros Hrej.
  destruct (Nat.eqb (List.length (gostrings.Split hdr "-")) 4
            && String.eqb (nth 0 (gostrings.Split hdr "-") "") "00")
    eqn:Hcheck; [right | left; reflexivity].
  apply andb_prop in Hcheck as [Hlen Hver].
  apply Nat.eqb_eq in Hlen. apply String.eqb_eq in Hver.
  destruct (gostrings.Split hdr "-")
    as [|p0 [|p1 [|p2 [|p3 [|p4 l]]]]] eqn:Hsplit; try discriminate Hlen.
  cbn [nth] in Hver. subst p0.
  destruct (Split_four_inv _ p1 p2 p3 Hsplit) as (Hhdr & H1 & H2 & H3).
  pose proof (Hrej p1 p2 p3 Hhdr H1 H2 H3) as Hbad.
  pose proof (ParseInt_16_8 p3) as H.
  destruct (strconv.ParseInt p3 16 8) as [v [e|]] eqn:Hparse.
  - exists p1, p2, p3, v, e. split; [reflexivity | exact Hparse].
  - exfalso. apply Hbad. exists v. exact H.
Qed.

(** ** The middleware, completely *)

(** X1: the middleware accepts exactly on the shape of the header and the
    range of the flags, nothing else: whatever bytes the two identifiers
    hold (any length, any alphabet but the hyphen) and however the flags
    are written (a plus sign, upper case, more than two digits), as long as
    they denote a base-16 integer [v] of the signed 8-bit range, the
    request is copied with the trace [{id, span, v odd}] in its context and
    the inner handler runs on the copy: the request read through the
    pointer the handler gets has the original context extended by that
    trace under the private key, and the look-up on it returns the
    trace. *)
Theorem New_accepts_header {ResponseWriter Outcome : Type}
    (next : @Handler ResponseWriter Outcome) (w : ResponseWriter)
    (r : http.ptr) (st : http.Store) (req : http.Request)
    (id span flags : string) (v : Z) :
  st !! r = Some req ->
  acceptedHeader (http.Get (http.Hdr req) "traceparent") id span flags v ->
  New next w r st
  = next w (fresh (dom st))
      (<[fresh (dom st) :=
           http.withCtx req
             (Trace_Context (mkTrace id span (Z.odd v)) (http.Context req))]> st)
  /\ exists req2,
       (<[fresh (dom st) :=
            http.withCtx req
              (Trace_Context (mkTrace id span (Z.odd v)) (http.Context req))]> st)
         !! fresh (dom st) = Some req2
       /\ req2 = http.mkRequest (http.Method req) (http.RequestURI req)
                   (http.Hdr req) (http.Body req)
                   (Some (context.valueCtx (http.Context req)
                            context.traceContextKeyT
                            (context.anyTrace (mkTrace id span (Z.odd v)))))
       /\ http.Context req2
          = context.valueCtx (http.Context req) context.traceContextKeyT
              (context.anyTrace (mkTrace id span (Z.odd v)))
       /\ lookupTrace (http.Context req2) = (mkTrace id span (Z.odd v), true).
Proof.
  intros Hreq (Hget & Hid & Hspan & Hflags & Hnum & Hrange). split.
  - rewrite (New_enriches next w r st req Hreq id span flags v).
    + rewrite land1_testbit, Z.bit0_odd. reflexivity.
    + rewrite Hget. now apply Split_header00.
    + now apply ParseInt_in_range.
  - exact (copy_reads_trace st (fresh (dom st)) req (mkTrace id span (Z.odd v))).
Qed.

Lemma acceptedHeader_plus :
  acceptedHeader (http.Get (http.Hdr requestPlus) "traceparent")
    "Trace!" "Span?" "+07B" 123.
Proof.
  unfold acceptedHeader, hyphenFree. repeat split; vm_compute; congruence.
Qed.

Lemma New_accepts_header_witness :
  storePlus !! 1%positive = Some requestPlus
  /\ acceptedHeader (http.Get (http.Hdr requestPlus) "traceparent")
       "Trace!" "Span?" "+07B" 123
  /\ New observe () 1%positive storePlus
     = Some (2%positive,
             http.mkRequest "GET" "/"
               {[ "Traceparent" := ["00-Trace!-Span?-+07B"] ]} ""
               (Some (context.valueCtx context.backgroundCtx
                        context.traceContextKeyT
                        (context.anyTrace (mkTrace "Trace!" "Span?" true)))))
  /\ exists req2,
       (<[2%positive :=
            http.withCtx requestPlus
              (Trace_Context (mkTrace "Trace!" "Span?" (Z.odd 123))
                             context.Background)]>
          storePlus) !! 2%positive = Some req2
       /\ lookupTrace (http.Context req2) = (mkTrace "Trace!" "Span?" true, true).
Proof.
  assert (Hst : storePlus !! 1%positive = Some requestPlus) by reflexivity.
  split; [exact Hst|]. split; [exact acceptedHeader_plus|].
  destruct (New_accepts_header observe () 1%positive storePlus requestPlus
              "Trace!" "Span?" "+07B" 123 Hst acceptedHeader_plus)
    as (H & req2 & Hread & _ & _ & Hlook).
  split.
  - rewrite H. vm_compute. reflexivity.
  - exists req2. split; [exact Hread | exact Hlook].
Defined.

(** X2: conversely, a header value that cannot be read as
    [00-id-span-flags] with hyphen-free fields and flags in the signed
    8-bit range never enriches: the inner handler runs on the original
    request pointer in the unchanged store. *)
Theorem New_rejects_header {ResponseWriter Outcome : Type}
    (next : @Handler ResponseWriter Outcome) (w : ResponseWriter)
    (r : http.ptr) (st : http.Store) (req : http.Request) :
  st !! r = Some req ->
  rejectedHeader (http.Get (http.Hdr req) "traceparent") ->
  New next w r st = next w r st.
Proof.
  intros Hreq Hrej.
  destruct (rejectedHeader_paths _ Hrej)
    as [Hcheck | (p1 & p2 & p3 & v & e & Hsplit & Hparse)].
  - exact (New_check_fails next w r st req Hreq Hcheck).
  - exact (New_flags_error next w r st req Hreq p1 p2 p3 v e Hsplit Hparse).
Qed.

Lemma rejectedHeader_ff :
  rejectedHeader (http.Get (http.Hdr requestFF) "traceparent").
Proof.
  apply (rejectedHeader_bad_flags _ w3cID w3cSpan "ff"); [reflexivity|].
  intros (v & Hv & Hr). vm_compute in Hv. injection Hv as <-. lia.
Qed.

Lemma New_rejects_header_witness :
  storeFF !! 1%positive = Some requestFF
  /\ rejectedHeader (http.Get (http.Hdr requestFF) "traceparent")
  /\ New observe () 1%positive storeFF = observe () 1%positive storeFF.
Proof.
  assert (Hst : storeFF !! 1%positive = Some requestFF) by reflexivity.
  split; [exact Hst|]. split; [exact rejectedHeader_ff|].
  exact (New_rejects_header observe () 1%positive storeFF requestFF
           Hst rejectedHeader_ff).
Defined.

(** X3: whatever the header, the middleware runs the inner handler, and
    the request the handler is run on has the method, URI, header and body
    of the original and a context that agrees with the original one on
    every key but the private one; every request of the store, the
    original included, is still there unchanged. *)
Theorem New_frame {ResponseWriter Outcome : Type}
    (next : @Handler ResponseWriter Outcome) (w : ResponseWriter)
    (r : http.ptr) (st : http.Store) (req : http.Request) :
  st !! r = Some req ->
  exists (r' : http.ptr) (st' : http.Store) (req' : http.Request),
    New next w r st = next w r' st'
    /\ st' !! r' = Some req'
    /\ http.Method req' = http.Method req
    /\ http.RequestURI req' = http.RequestURI req
    /\ http.Hdr req' = http.Hdr req
    /\ http.Body req' = http.Body req
    /\ (forall k, k <> context.traceContextKeyT ->
          context.Value (http.Context req') k = context.Value (http.Context req) k)
    /\ (forall p q, st !! p = Some q -> st' !! p = Some q).
Proof.
  intros Hreq. unfold New, http.WithContext. rewrite Hreq. cbn zeta.
  destruct (Nat.eqb _ 4 && String.eqb _ "00");
    [destruct (strconv.ParseInt _ 16 8) as [flags [e|]]|].
  - exists r, st, req. repeat split; auto.
  - eexists _, _, _. split; [reflexivity|].
    split; [apply lookup_insert_eq|].
    repeat split.
    + intros k Hk. unfold http.withCtx, http.Context at 1. cbn [http.ctx].
      unfold Trace_Context, context.WithValue. cbn [context.Value].
      now rewrite decide_False by (intros Heq; apply Hk; symmetry; exact Heq).
    + intros p q Hp. rewrite lookup_insert_ne; [exact Hp|].
      intros <-. pose proof (is_fresh (dom st)) as Hfresh.
      apply Hfresh. apply elem_of_dom. eauto.
  - exists r, st, req. repeat split; auto.
Qed.

Lemma New_frame_witness :
  exists (r' : http.ptr) (st' : http.Store) (req' : http.Request),
    New observe () 1%positive store01 = observe () r' st'
    /\ st' !! r' = Some req'
    /\ http.Method req' = http.Method request01
    /\ http.RequestURI req' = http.RequestURI request01
    /\ http.Hdr req' = http.Hdr request01
    /\ http.Body req' = http.Body request01
    /\ (forall k, k <> context.traceContextKeyT ->
          context.Value (http.Context req') k
          = context.Value (http.Context request01) k)
    /\ (forall p q, store01 !! p = Some q -> st' !! p = Some q).
Proof.
  apply (New_frame observe () 1%positive store01 request01). reflexivity.
Defined.

(** ** From the header to the log fields *)

Lemma TraceParentExtractor_Trace_Context (T : Trace) (c : context.Context)
    (recordT : Time) (recordLvl : slog.Level) (recordMsg : string) :
  TraceParentExtractor (Trace_Context T c) recordT recordLvl recordMsg
  = TraceParentExtractor (Trace_Context T context.Background)
      recordT recordLvl recordMsg.
Proof.
  unfold TraceParentExtractor, Trace_Context, context.WithValue.
  cbn [context.Value]. rewrite !decide_True by reflexivity. reflexivity.
Qed.

Lemma logFields_insert {ResponseWriter : Type} (w : ResponseWriter)
    (recordT : Time) (recordLvl : slog.Level) (recordMsg : string)
    (r : http.ptr) (req : http.Request) (st : http.Store) :
  logFields recordT recordLvl recordMsg w r (<[r := req]> st)
  = Some (TraceParentExtractor (http.Context req) recordT recordLvl recordMsg).
Proof. unfold logFields. now rewrite lookup_insert_eq. Qed.

(** X4: end to end, for an accepted header with non-empty identifiers a
    handler that logs with the request's context gets exactly the fields
    [traceID] = id, [traceSampled] = (flags odd), [spanID] = id, whatever
    the context of the incoming request held before (an earlier trace is
    shadowed). *)
Theorem New_then_extractor {ResponseWriter : Type} (w : ResponseWriter)
    (r : http.ptr) (st : http.Store) (req : http.Request)
    (id span flags : string) (v : Z)
    (recordT : Time) (recordLvl : slog.Level) (recordMsg : string) :
  st !! r = Some req ->
  acceptedHeader (http.Get (http.Hdr req) "traceparent") id span flags v ->
  id <> "" ->
  span <> "" ->
  New (logFields recordT recordLvl recordMsg) w r st
  = Some [slog.String "traceID" id;
          slog.Bool "traceSampled" (Z.odd v);
          slog.String "spanID" id].
Proof.
  intros Hreq (Hget & Hfid & Hfspan & Hfflags & Hnum & Hrange) Hid Hspan.
  rewrite (New_enriches _ w r st req Hreq id span flags v);
    [| rewrite Hget; now apply Split_header00 | now apply ParseInt_in_range].
  rewrite land1_testbit, Z.bit0_odd.
  rewrite logFields_insert. f_equal.
  unfold http.withCtx, http.Context at 1. cbn [http.ctx].
  rewrite (TraceParentExtractor_lookup _ (mkTrace id span (Z.odd v)) true _ _ _
             (lookupTrace_Trace_Context _ _)).
  cbn [ID SpanID Sampled negb orb].
  apply String.eqb_neq in Hid, Hspan. rewrite Hid, Hspan. reflexivity.
Qed.

Lemma New_then_extractor_witness :
  New (logFields (mkTime 0 0) 0 "incoming") () 1%positive storePlus
  = Some [slog.String "traceID" "Trace!";
          slog.Bool "traceSampled" true;
          slog.String "spanID" "Trace!"].
Proof.
  apply (New_then_extractor () 1%positive storePlus requestPlus
           "Trace!" "Span?" "+07B" 123).
  - reflexivity.
  - exact acceptedHeader_plus.
  - discriminate.
  - discriminate.
Defined.

(** X5: end to end, for a rejected header the handler logs exactly the
    fields of the context the request arrived with: a trace attached
    upstream stays visible, and without one no field is contributed. *)
Theorem New_rejected_then_extractor {ResponseWriter : Type} (w : ResponseWriter)
    (r : http.ptr) (st : http.Store) (req : http.Request)
    (recordT : Time) (recordLvl : slog.Level) (recordMsg : string) :
  st !! r = Some req ->
  rejectedHeader (http.Get (http.Hdr req) "traceparent") ->
  New (logFields recordT recordLvl recordMsg) w r st
  = Some (TraceParentExtractor (http.Context req) recordT recordLvl recordMsg)
  /\ (snd (lookupTrace (http.Context req)) = false ->
      New (logFields recordT recordLvl recordMsg) w r st = Some []).
Proof.
  intros Hreq Hrej.
  assert (Hpass : New (logFields recordT recordLvl recordMsg) w r st
                  = logFields recordT recordLvl recordMsg w r st).
  { destruct (rejectedHeader_paths _ Hrej)
      as [Hcheck | (p1 & p2 & p3 & v & e & Hsplit & Hparse)].
    - exact (New_check_fails _ w r st req Hreq Hcheck).
    - exact (New_flags_error _ w r st req Hreq p1 p2 p3 v e Hsplit Hparse). }
  rewrite Hpass.
  unfold logFields. rewrite Hreq. split; [reflexivity|].
  intros Hno. f_equal.
  destruct (lookupTrace (http.Context req)) as [T ok] eqn:Hl.
  cbn [snd] in Hno. subst ok.
  now rewrite (TraceParentExtractor_lookup _ T false _ _ _ Hl).
Qed.

Lemma rejectedHeader_traced :
  rejectedHeader (http.Get (http.Hdr requestTraced) "traceparent").
Proof.
  apply (rejectedHeader_bad_flags _ "abc" "def" "zz"); [reflexivity|].
  exact not_fits_zz.
Qed.

Lemma New_rejected_then_extractor_witness :
  New (logFields (mkTime 0 0) 0 "incoming") () 1%positive storeTraced
  = Some [slog.String "traceID" "4bf92f3577b34da6a3ce929d0e0e4736";
          slog.Bool "traceSampled" true;
          slog.String "spanID" "4bf92f3577b34da6a3ce929d0e0e4736"].
Proof.
  destruct (New_rejected_then_extractor () 1%positive storeTraced requestTraced
              (mkTime 0 0) 0 "incoming" eq_refl rejectedHeader_traced) as [H _].
  rewrite H. reflexivity.
Defined.

(** X6: stacking the middleware twice changes nothing a logging handler
    can see: the fields it gets under [New (New _)] are those it gets under
    [New _], for every store and pointer. *)
Theorem New_twice_same_fields {ResponseWriter : Type} (w : ResponseWriter)
    (r : http.ptr) (st : http.Store)
    (recordT : Time) (recordLvl : slog.Level) (recordMsg : string) :
  New (New (logFields recordT recordLvl recordMsg)) w r st
  = New (logFields recordT recordLvl recordMsg) w r st.
Proof.
  destruct (st !! r) as [req|] eqn:Hreq; [|unfold New at 1 3; now rewrite Hreq].
  destruct (Nat.eqb (List.length (gostrings.Split (http.Get (http.Hdr req) "traceparent") "-")) 4
            && String.eqb (nth 0 (gostrings.Split (http.Get (http.Hdr req) "traceparent") "-") "") "00")
    eqn:Hcheck.
  - apply andb_prop in Hcheck as [Hlen Hver].
    apply Nat.eqb_eq in Hlen. apply String.eqb_eq in Hver.
    destruct (gostrings.Split (http.Get (http.Hdr req) "traceparent") "-")
      as [|p0 [|p1 [|p2 [|p3 [|p4 l]]]]] eqn:Hsplit; try discriminate Hlen.
    cbn [nth] in Hver. subst p0.
    destruct (strconv.ParseInt p3 16 8) as [v [e|]] eqn:Hparse.
    + now rewrite (New_flags_error _ w r st req Hreq p1 p2 p3 v e Hsplit Hparse).
    + set (T := mkTrace p1 p2 (negb (Z.land v 1 =? 0))).
      rewrite (New_enriches (New (logFields recordT recordLvl recordMsg))
                 w r st req Hreq p1 p2 p3 v Hsplit Hparse).
      rewrite (New_enriches (logFields recordT recordLvl recordMsg)
                 w r st req Hreq p1 p2 p3 v Hsplit Hparse).
      fold T.
      rewrite (New_enriches (logFields recordT recordLvl recordMsg) w
                 (fresh (dom st)) _ (http.withCtx req (Trace_Context T (http.Context req)))
                 (lookup_insert_eq _ _ _) p1 p2 p3 v Hsplit Hparse).
      fold T. rewrite !logFields_insert. apply (f_equal Some).
      unfold http.withCtx, http.Context. cbn [http.ctx].
      rewrite (TraceParentExtractor_Trace_Context T (Trace_Context T _)).
      now rewrite (TraceParentExtractor_Trace_Context T (http.Context req)).
  - now rewrite (New_check_fails _ w r st req Hreq Hcheck).
Qed.

(** ** The extractor over contexts *)

Lemma lookupTrace_unrelated_base (base c' : context.Context) :
  unrelatedDerivation base c' -> lookupTrace c' = lookupTrace base.
Proof.
  induction 1 as [|c' k v Hk _ IH|c' _ IH].
  - reflexivity.
  - unfold lookupTrace, context.WithValue in *. cbn [context.Value].
    rewrite decide_False by exact Hk. exact IH.
  - exact IH.
Qed.

(** X7: the span id never reaches the log.  Two stored traces with the
    same id and sampled flag whose span ids are both empty or both
    non-empty give the same fields, whatever the span ids are. *)
Theorem extractor_span_content_unused (ctx ctx' : context.Context) (T T' : Trace)
    (recordT : Time) (recordLvl : slog.Level) (recordMsg : string) :
  lookupTrace ctx = (T, true) ->
  lookupTrace ctx' = (T', true) ->
  ID T = ID T' ->
  Sampled T = Sampled T' ->
  (SpanID T = "" <-> SpanID T' = "") ->
  TraceParentExtractor ctx recordT recordLvl recordMsg
  = TraceParentExtractor ctx' recordT recordLvl recordMsg.
Proof.
  intros Hl Hl' Hid Hs Hspan.
  rewrite (TraceParentExtractor_lookup ctx T true _ _ _ Hl).
  rewrite (TraceParentExtractor_lookup ctx' T' true _ _ _ Hl').
  rewrite Hid, Hs.
  destruct (String.eqb_spec (SpanID T) ""), (String.eqb_spec (SpanID T') "");
    try reflexivity; exfalso; tauto.
Qed.

Lemma extractor_span_content_unused_witness :
  TraceParentExtractor
    (Trace_Context (mkTrace "abc" "00f067aa0ba902b7" true) context.Background)
    (mkTime 0 0) 0 "incoming"
  = TraceParentExtractor
      (Trace_Context (mkTrace "abc" "ffffffffffffffff" true) context.todoCtx)
      (mkTime 0 0) 0 "incoming".
Proof.
  apply (extractor_span_content_unused _ _
           (mkTrace "abc" "00f067aa0ba902b7" true)
           (mkTrace "abc" "ffffffffffffffff" true)).
  - reflexivity.
  - reflexivity.
  - reflexivity.
  - reflexivity.
  - split; discriminate.
Defined.

(** X8: deriving a context further under other keys, or by derivations
    that carry no value, changes neither the look-up nor the fields the
    extractor returns, whether the base holds a trace or not. *)
Theorem extractor_unrelated_derivation (base c' : context.Context)
    (recordT : Time) (recordLvl : slog.Level) (recordMsg : string) :
  unrelatedDerivation base c' ->
  lookupTrace c' = lookupTrace base
  /\ TraceParentExtractor c' recordT recordLvl recordMsg
     = TraceParentExtractor base recordT recordLvl recordMsg.
Proof.
  intros Hder. pose proof (lookupTrace_unrelated_base base c' Hder) as Hl.
  split; [exact Hl|].
  destruct (lookupTrace base) as [T ok] eqn:Hb.
  rewrite (TraceParentExtractor_lookup c' T ok _ _ _ Hl).
  rewrite (TraceParentExtractor_lookup base T ok _ _ _ Hb).
  reflexivity.
Qed.

Lemma extractor_unrelated_derivation_witness :
  lookupTrace
    (context.cancelCtx
       (context.WithValue (Trace_Context w3cTrace context.Background)
          (context.foreignKey "session.key" 0) (context.anyInt 7)))
  = lookupTrace (Trace_Context w3cTrace context.Background)
  /\ TraceParentExtractor
       (context.cancelCtx
          (context.WithValue (Trace_Context w3cTrace context.Background)
             (context.foreignKey "session.key" 0) (context.anyInt 7)))
       (mkTime 0 0) 0 "incoming"
     = TraceParentExtractor (Trace_Context w3cTrace context.Background)
         (mkTime 0 0) 0 "incoming".
Proof.
  apply extractor_unrelated_derivation.
  apply ud_cancel. apply ud_value; [discriminate|]. apply ud_base.
Defined.

(** X9: the extractor contributes no field exactly when the context holds
    no trace or holds one with an empty id; otherwise its first field is
    [traceID] with that non-empty id and it returns two or three fields. *)
Theorem extractor_empty_iff (ctx : context.Context)
    (recordT : Time) (recordLvl : slog.Level) (recordMsg : string) :
  (TraceParentExtractor ctx recordT recordLvl recordMsg = []
   <-> snd (lookupTrace ctx) = false \/ ID (fst (lookupTrace ctx)) = "")
  /\ (TraceParentExtractor ctx recordT recordLvl recordMsg <> [] ->
      hd_error (TraceParentExtractor ctx recordT recordLvl recordMsg)
      = Some (slog.String "traceID" (ID (fst (lookupTrace ctx))))
      /\ (2 <= List.length (TraceParentExtractor ctx recordT recordLvl recordMsg) <= 3)%nat).
Proof.
  destruct (lookupTrace ctx) as [T ok] eqn:Hl.
  rewrite (TraceParentExtractor_lookup ctx T ok _ _ _ Hl). cbn [fst snd].
  destruct ok; cbn [negb orb].
  - destruct (String.eqb_spec (ID T) "") as [Hid|Hid].
    + split; [split; auto|]. intros H. now contradiction H.
    + destruct (negb (String.eqb (SpanID T) "")); cbn [hd_error List.length].
      * split; [split; [discriminate | intros [|]; [discriminate | contradiction]]|].
        intros _. split; [reflexivity | lia].
      * split; [split; [discriminate | intros [|]; [discriminate | contradiction]]|].
        intros _. split; [reflexivity | lia].
  - split; [split; auto|]. intros H. now contradiction H.
Qed.

(** ** Requests without the header *)

(** X10: a request that has no [Traceparent] entry in its header map, an
    entry with no value, or an empty first value, goes to the inner
    handler as it is: same pointer, unchanged store. *)
Theorem New_missing_header {ResponseWriter Outcome : Type}
    (next : @Handler ResponseWriter Outcome) (w : ResponseWriter)
    (r : http.ptr) (st : http.Store) (req : http.Request) :
  st !! r = Some req ->
  (http.Hdr req !! "Traceparent" = None
   \/ http.Hdr req !! "Traceparent" = Some []
   \/ exists more, http.Hdr req !! "Traceparent" = Some ("" :: more)) ->
  New next w r st = next w r st.
Proof.
  intros Hreq Hmiss. apply (New_absent next w r st req Hreq).
  unfold http.Get. rewrite canonical_traceparent.
  destruct Hmiss as [-> | [-> | [more ->]]]; reflexivity.
Qed.

Lemma New_missing_header_witness :
  New observe () 1%positive
    ({[ 1%positive := http.mkRequest "POST" "/items" ∅ "payload" None ]} : http.Store)
  = Some (1%positive, http.mkRequest "POST" "/items" ∅ "payload" None).
Proof.
  rewrite (New_missing_header observe () 1%positive
             ({[ 1%positive := http.mkRequest "POST" "/items" ∅ "payload" None ]} : http.Store)
             (http.mkRequest "POST" "/items" ∅ "payload" None)).
  - reflexivity.
  - reflexivity.
  - left. reflexivity.
Defined.
